(** * bcinfo::MetadataExtractor

    A shallow embedding of [libbcc/include/bcinfo/MetadataExtractor.h]:
    the ForEach signature bit-field predicates, the extractor record with its
    inline accessors, and a model of construction and of [extract()] whose
    bodies live outside the header. *)

From Stdlib Require Import ZArith Strings.String Init.Byte.
From stdpp Require Import gmap list.

Local Open Scope Z_scope.

(** ** Machine integers

    [uint32_t] is a [Z] in the range [0 .. 2^32 - 1]; a value that enters a
    [uint32_t] from elsewhere is reduced modulo [2^32]. [size_t] counts are
    lengths of in-memory arrays and are kept as [nat]. *)

Definition UINT32_MODULUS : Z := 2 ^ 32.

Definition is_uint32 (v : Z) : Prop := 0 <= v < UINT32_MODULUS.

Definition to_uint32 (v : Z) : Z := v mod UINT32_MODULUS.

(** The implicit conversion of an integer to [bool] in a [return]
    statement of a [bool] function: zero is [false], anything else is
    [true]. *)
Definition uint32_to_bool (v : Z) : bool := negb (v =? 0).

(** ** enum RSFloatPrecision *)

Inductive RSFloatPrecision : Set :=
| RS_FP_Full
| RS_FP_Relaxed.

Definition RSFloatPrecision_value (p : RSFloatPrecision) : Z :=
  match p with
  | RS_FP_Full => 0
  | RS_FP_Relaxed => 1
  end.

(** ** The static ForEach signature predicates

    Each one is [return sig & mask;] with the mask written as the header
    writes it. *)

Definition hasForEachSignatureIn (sig : Z) : bool :=
  uint32_to_bool (Z.land sig 0x01).

Definition hasForEachSignatureOut (sig : Z) : bool :=
  uint32_to_bool (Z.land sig 0x02).

Definition hasForEachSignatureUsrData (sig : Z) : bool :=
  uint32_to_bool (Z.land sig 0x04).

Definition hasForEachSignatureX (sig : Z) : bool :=
  uint32_to_bool (Z.land sig 0x08).

Definition hasForEachSignatureY (sig : Z) : bool :=
  uint32_to_bool (Z.land sig 0x10).

Definition hasForEachSignatureKernel (sig : Z) : bool :=
  uint32_to_bool (Z.land sig 0x20).

(** The six predicates in the order of the header, for statements that
    range over all of them. *)
Definition signature_flags (sig : Z) : list bool :=
  [ hasForEachSignatureIn sig; hasForEachSignatureOut sig;
    hasForEachSignatureUsrData sig; hasForEachSignatureX sig;
    hasForEachSignatureY sig; hasForEachSignatureKernel sig ].

Definition count_set (flags : list bool) : nat :=
  length (filter (fun b => b = true) flags).

(** ** The bitcode library's side of the interface

    The header only forward-declares [llvm::Module] and [llvm::NamedMDNode]. *)

(** Modelled from the spec: the operands the extractor iterates over, which
    the header leaves to the bitcode library. Each operand is either a string
    constant or an integer constant. *)
Inductive Operand : Type :=
| StringConstant (s : string)
| IntegerConstant (n : Z).

(** Modelled from the spec: one entry of a named metadata collection, which
    the header leaves to the bitcode library. A name entry holds one string,
    a signature or slot entry one integer, a pragma entry a key and a
    value. *)
Definition MDEntry : Type := list Operand.

(** Modelled from the spec: [llvm::NamedMDNode], which the header only
    forward-declares: an ordered collection of entries. *)
Definition llvm_NamedMDNode : Type := list MDEntry.

(** Modelled from the spec: the fixed vocabulary of reserved metadata names
    shared by the compiler front end and the extractor. The header does not
    spell the names, so the vocabulary is an enumeration: five categories
    (the ForEach category has a names node and a signatures node) and three
    scalar entries. *)
Inductive MetadataName : Set :=
| ExportVarMetadataName
| ExportFuncMetadataName
| ExportForEachNameMetadataName
| ExportForEachMetadataName
| PragmaMetadataName
| ObjectSlotMetadataName
| CompilerVersionMetadataName
| OptimizationLevelMetadataName
| FloatPrecisionMetadataName.

#[global] Instance MetadataName_eq_dec : EqDecision MetadataName.
Proof. solve_decision. Defined.

(** Modelled from the spec: [llvm::Module], which the header only
    forward-declares, as far as the extractor queries it: the lookup of a
    named metadata collection by name, [None] when the module has no such
    node. *)
Record llvm_Module : Type := {
  getNamedMetadata : MetadataName -> option llvm_NamedMDNode
}.

(** A [const llvm::Module *] is a handle into the store of live modules. *)
Definition handle : Set := positive.

(** Modelled from the spec: parse-from-bytes, the bitcode library's entry
    point that the raw-bytes constructor path relies on; [None] is malformed
    bitcode. *)
Class BitcodeReader : Type :=
  ParseBitcodeFile : list byte -> option llvm_Module.

(** ** class MetadataExtractor

    The private fields in the order of the header. A nullable pointer is an
    [option]; an owned array ([const char **], [const uint32_t *]) is the
    list of its elements, the null pointer being the empty list, and its
    element count is the separate [size_t] field the header keeps next to
    it. *)
Record MetadataExtractor : Type := {
  mModule : option handle;
  mBitcode : option (list byte);
  mBitcodeSize : nat;

  mExportVarCount : nat;
  mExportFuncCount : nat;
  mExportForEachSignatureCount : nat;
  mExportVarNameList : list string;
  mExportFuncNameList : list string;
  mExportForEachNameList : list string;
  mExportForEachSignatureList : list Z;

  mPragmaCount : nat;
  mPragmaKeyList : list string;
  mPragmaValueList : list string;

  mObjectSlotCount : nat;
  mObjectSlotList : list Z;

  mCompilerVersion : Z;
  mOptimizationLevel : Z;

  mRSFloatPrecision : RSFloatPrecision
}.

(** *** Accessors (inline in the header) *)

Definition getExportVarCount (this : MetadataExtractor) : nat :=
  mExportVarCount this.

Definition getExportVarNameList (this : MetadataExtractor) : list string :=
  mExportVarNameList this.

Definition getExportFuncCount (this : MetadataExtractor) : nat :=
  mExportFuncCount this.

Definition getExportFuncNameList (this : MetadataExtractor) : list string :=
  mExportFuncNameList this.

Definition getExportForEachSignatureCount (this : MetadataExtractor) : nat :=
  mExportForEachSignatureCount this.

Definition getExportForEachSignatureList (this : MetadataExtractor) : list Z :=
  mExportForEachSignatureList this.

Definition getExportForEachNameList (this : MetadataExtractor) : list string :=
  mExportForEachNameList this.

Definition getPragmaCount (this : MetadataExtractor) : nat :=
  mPragmaCount this.

Definition getPragmaKeyList (this : MetadataExtractor) : list string :=
  mPragmaKeyList this.

Definition getPragmaValueList (this : MetadataExtractor) : list string :=
  mPragmaValueList this.

Definition getObjectSlotCount (this : MetadataExtractor) : nat :=
  mObjectSlotCount this.

Definition getObjectSlotList (this : MetadataExtractor) : list Z :=
  mObjectSlotList this.

Definition getCompilerVersion (this : MetadataExtractor) : Z :=
  mCompilerVersion this.

Definition getOptimizationLevel (this : MetadataExtractor) : Z :=
  mOptimizationLevel this.

Definition getRSFloatPrecision (this : MetadataExtractor) : RSFloatPrecision :=
  mRSFloatPrecision this.

(** *** Field updates

    Each helper of [extract()] writes one group of fields and leaves the
    others as they are. *)

Definition set_module (h : handle) (this : MetadataExtractor) : MetadataExtractor :=
  {| mModule := Some h;
     mBitcode := mBitcode this;
     mBitcodeSize := mBitcodeSize this;
     mExportVarCount := mExportVarCount this;
     mExportFuncCount := mExportFuncCount this;
     mExportForEachSignatureCount := mExportForEachSignatureCount this;
     mExportVarNameList := mExportVarNameList this;
     mExportFuncNameList := mExportFuncNameList this;
     mExportForEachNameList := mExportForEachNameList this;
     mExportForEachSignatureList := mExportForEachSignatureList this;
     mPragmaCount := mPragmaCount this;
     mPragmaKeyList := mPragmaKeyList this;
     mPragmaValueList := mPragmaValueList this;
     mObjectSlotCount := mObjectSlotCount this;
     mObjectSlotList := mObjectSlotList this;
     mCompilerVersion := mCompilerVersion this;
     mOptimizationLevel := mOptimizationLevel this;
     mRSFloatPrecision := mRSFloatPrecision this |}.

Definition set_ExportVar (count : nat) (names : list string)
    (this : MetadataExtractor) : MetadataExtractor :=
  {| mModule := mModule this;
     mBitcode := mBitcode this;
     mBitcodeSize := mBitcodeSize this;
     mExportVarCount := count;
     mExportFuncCount := mExportFuncCount this;
     mExportForEachSignatureCount := mExportForEachSignatureCount this;
     mExportVarNameList := names;
     mExportFuncNameList := mExportFuncNameList this;
     mExportForEachNameList := mExportForEachNameList this;
     mExportForEachSignatureList := mExportForEachSignatureList this;
     mPragmaCount := mPragmaCount this;
     mPragmaKeyList := mPragmaKeyList this;
     mPragmaValueList := mPragmaValueList this;
     mObjectSlotCount := mObjectSlotCount this;
     mObjectSlotList := mObjectSlotList this;
     mCompilerVersion := mCompilerVersion this;
     mOptimizationLevel := mOptimizationLevel this;
     mRSFloatPrecision := mRSFloatPrecision this |}.

Definition set_ExportFunc (count : nat) (names : list string)
    (this : MetadataExtractor) : MetadataExtractor :=
  {| mModule := mModule this;
     mBitcode := mBitcode this;
     mBitcodeSize := mBitcodeSize this;
     mExportVarCount := mExportVarCount this;
     mExportFuncCount := count;
     mExportForEachSignatureCount := mExportForEachSignatureCount this;
     mExportVarNameList := mExportVarNameList this;
     mExportFuncNameList := names;
     mExportForEachNameList := mExportForEachNameList this;
     mExportForEachSignatureList := mExportForEachSignatureList this;
     mPragmaCount := mPragmaCount this;
     mPragmaKeyList := mPragmaKeyList this;
     mPragmaValueList := mPragmaValueList this;
     mObjectSlotCount := mObjectSlotCount this;
     mObjectSlotList := mObjectSlotList this;
     mCompilerVersion := mCompilerVersion this;
     mOptimizationLevel := mOptimizationLevel this;
     mRSFloatPrecision := mRSFloatPrecision this |}.

Definition set_ExportForEach (count : nat) (names : list string)
    (signatures : list Z) (this : MetadataExtractor) : MetadataExtractor :=
  {| mModule := mModule this;
     mBitcode := mBitcode this;
     mBitcodeSize := mBitcodeSize this;
     mExportVarCount := mExportVarCount this;
     mExportFuncCount := mExportFuncCount this;
     mExportForEachSignatureCount := count;
     mExportVarNameList := mExportVarNameList this;
     mExportFuncNameList := mExportFuncNameList this;
     mExportForEachNameList := names;
     mExportForEachSignatureList := signatures;
     mPragmaCount := mPragmaCount this;
     mPragmaKeyList := mPragmaKeyList this;
     mPragmaValueList := mPragmaValueList this;
     mObjectSlotCount := mObjectSlotCount this;
     mObjectSlotList := mObjectSlotList this;
     mCompilerVersion := mCompilerVersion this;
     mOptimizationLevel := mOptimizationLevel this;
     mRSFloatPrecision := mRSFloatPrecision this |}.

Definition set_Pragma (count : nat) (keys values : list string)
    (this : MetadataExtractor) : MetadataExtractor :=
  {| mModule := mModule this;
     mBitcode := mBitcode this;
     mBitcodeSize := mBitcodeSize this;
     mExportVarCount := mExportVarCount this;
     mExportFuncCount := mExportFuncCount this;
     mExportForEachSignatureCount := mExportForEachSignatureCount this;
     mExportVarNameList := mExportVarNameList this;
     mExportFuncNameList := mExportFuncNameList this;
     mExportForEachNameList := mExportForEachNameList this;
     mExportForEachSignatureList := mExportForEachSignatureList this;
     mPragmaCount := count;
     mPragmaKeyList := keys;
     mPragmaValueList := values;
     mObjectSlotCount := mObjectSlotCount this;
     mObjectSlotList := mObjectSlotList this;
     mCompilerVersion := mCompilerVersion this;
     mOptimizationLevel := mOptimizationLevel this;
     mRSFloatPrecision := mRSFloatPrecision this |}.

Definition set_ObjectSlot (count : nat) (slots : list Z)
    (this : MetadataExtractor) : MetadataExtractor :=
  {| mModule := mModule this;
     mBitcode := mBitcode this;
     mBitcodeSize := mBitcodeSize this;
     mExportVarCount := mExportVarCount this;
     mExportFuncCount := mExportFuncCount this;
     mExportForEachSignatureCount := mExportForEachSignatureCount this;
     mExportVarNameList := mExportVarNameList this;
     mExportFuncNameList := mExportFuncNameList this;
     mExportForEachNameList := mExportForEachNameList this;
     mExportForEachSignatureList := mExportForEachSignatureList this;
     mPragmaCount := mPragmaCount this;
     mPragmaKeyList := mPragmaKeyList this;
     mPragmaValueList := mPragmaValueList this;
     mObjectSlotCount := count;
     mObjectSlotList := slots;
     mCompilerVersion := mCompilerVersion this;
     mOptimizationLevel := mOptimizationLevel this;
     mRSFloatPrecision := mRSFloatPrecision this |}.

Definition set_scalars (version level : Z) (precision : RSFloatPrecision)
    (this : MetadataExtractor) : MetadataExtractor :=
  {| mModule := mModule this;
     mBitcode := mBitcode this;
     mBitcodeSize := mBitcodeSize this;
     mExportVarCount := mExportVarCount this;
     mExportFuncCount := mExportFuncCount this;
     mExportForEachSignatureCount := mExportForEachSignatureCount this;
     mExportVarNameList := mExportVarNameList this;
     mExportFuncNameList := mExportFuncNameList this;
     mExportForEachNameList := mExportForEachNameList this;
     mExportForEachSignatureList := mExportForEachSignatureList this;
     mPragmaCount := mPragmaCount this;
     mPragmaKeyList := mPragmaKeyList this;
     mPragmaValueList := mPragmaValueList this;
     mObjectSlotCount := mObjectSlotCount this;
     mObjectSlotList := mObjectSlotList this;
     mCompilerVersion := version;
     mOptimizationLevel := level;
     mRSFloatPrecision := precision |}.

(** ** Construction

    The header declares both constructors and defines neither. *)

(** Modelled from the spec: the state every constructor leaves the tables and
    scalars in (the constructor bodies are not in the header). The instance is
    constructed empty: every table has length zero, the compiler version and
    the optimization level are 0, the precision is Full. *)
Definition empty_instance (module : option handle) (bitcode : option (list byte))
    (bitcodeSize : nat) : MetadataExtractor :=
  {| mModule := module;
     mBitcode := bitcode;
     mBitcodeSize := bitcodeSize;
     mExportVarCount := 0;
     mExportFuncCount := 0;
     mExportForEachSignatureCount := 0;
     mExportVarNameList := [];
     mExportFuncNameList := [];
     mExportForEachNameList := [];
     mExportForEachSignatureList := [];
     mPragmaCount := 0;
     mPragmaKeyList := [];
     mPragmaValueList := [];
     mObjectSlotCount := 0;
     mObjectSlotList := [];
     mCompilerVersion := 0;
     mOptimizationLevel := 0;
     mRSFloatPrecision := RS_FP_Full |}.

(** Modelled from the spec: [MetadataExtractor(const char *bitcode, size_t
    bitcodeSize)], whose body is not in the header. The raw bytes are the
    backing representation; no module is referenced yet. *)
Definition MetadataExtractor_of_bitcode (bitcode : option (list byte))
    (bitcodeSize : nat) : MetadataExtractor :=
  empty_instance None bitcode bitcodeSize.

(** Modelled from the spec: [MetadataExtractor(const llvm::Module *module)],
    whose body is not in the header. The module is borrowed; there is no
    byte buffer. *)
Definition MetadataExtractor_of_module (module : handle) : MetadataExtractor :=
  empty_instance (Some module) None 0.

(** The instances a caller can hold right after construction. *)
Inductive Constructed : MetadataExtractor -> Prop :=
| Constructed_bitcode (bitcode : option (list byte)) (bitcodeSize : nat) :
    Constructed (MetadataExtractor_of_bitcode bitcode bitcodeSize)
| Constructed_module (module : handle) :
    Constructed (MetadataExtractor_of_module module).

(** ** Extraction

    [extract()] and its five private helpers are declared in the header and
    defined elsewhere. A helper declared [bool] returns [None] for [false]
    and [Some] of the updated instance for [true]. *)

(** Modelled from the spec: reading a string name out of an entry (the
    helper bodies are not in the header). Anything but a single string
    constant is a non-string entry where a string name is expected. *)
Definition entryString (entry : MDEntry) : option string :=
  match entry with
  | [StringConstant s] => Some s
  | _ => None
  end.

(** Modelled from the spec: reading a 32-bit integer out of an entry (the
    helper bodies are not in the header). Anything but a single integer
    constant is a non-integer where an integer is expected. *)
Definition entryUInt32 (entry : MDEntry) : option Z :=
  match entry with
  | [IntegerConstant n] => Some (to_uint32 n)
  | _ => None
  end.

(** Modelled from the spec: reading a pragma out of an entry (the helper
    bodies are not in the header). The expected shape is a key/value pair of
    strings. *)
Definition entryKeyValue (entry : MDEntry) : option (string * string) :=
  match entry with
  | [StringConstant k; StringConstant v] => Some (k, v)
  | _ => None
  end.

(** Modelled from the spec: a node that is absent from the module and a node
    with zero entries both count as zero entries (the helper bodies are not
    in the header). *)
Definition entriesOf (node : option llvm_NamedMDNode) : list MDEntry :=
  default [] node.

(** Modelled from the spec: [populateVarNameMetadata], declared [bool] in the
    header without a body. An absent category leaves the zero-length table;
    a present one is copied into the owned table, and a non-string entry is
    a failure. *)
Definition populateVarNameMetadata (VarNameMetadata : option llvm_NamedMDNode)
    (this : MetadataExtractor) : option MetadataExtractor :=
  match VarNameMetadata with
  | None => Some this
  | Some node =>
      names ← mapM entryString node;
      Some (set_ExportVar (length node) names this)
  end.

(** Modelled from the spec: [populateFuncNameMetadata], declared [bool] in
    the header without a body; as for the variable names. *)
Definition populateFuncNameMetadata (FuncNameMetadata : option llvm_NamedMDNode)
    (this : MetadataExtractor) : option MetadataExtractor :=
  match FuncNameMetadata with
  | None => Some this
  | Some node =>
      names ← mapM entryString node;
      Some (set_ExportFunc (length node) names this)
  end.

(** Modelled from the spec: [populateForEachMetadata], declared [bool] in the
    header without a body. The names node and the signatures node are
    parallel lists: a length mismatch between them is a failure, and so is a
    non-string name or a non-integer signature. The kernel count is the
    number of signatures. *)
Definition populateForEachMetadata (Names Signatures : option llvm_NamedMDNode)
    (this : MetadataExtractor) : option MetadataExtractor :=
  match Names, Signatures with
  | None, None => Some this
  | _, _ =>
      if bool_decide (length (entriesOf Names) = length (entriesOf Signatures))
      then
        names ← mapM entryString (entriesOf Names);
        signatures ← mapM entryUInt32 (entriesOf Signatures);
        Some (set_ExportForEach (length (entriesOf Signatures)) names signatures this)
      else None
  end.

(** Modelled from the spec: [populateObjectSlotMetadata], declared [bool] in
    the header without a body. The slots are 32-bit indices; a non-integer
    entry is a failure. *)
Definition populateObjectSlotMetadata (ObjectSlotMetadata : option llvm_NamedMDNode)
    (this : MetadataExtractor) : option MetadataExtractor :=
  match ObjectSlotMetadata with
  | None => Some this
  | Some node =>
      slots ← mapM entryUInt32 node;
      Some (set_ObjectSlot (length node) slots this)
  end.

(** Modelled from the spec: the shape test on the pragma node that
    [extract()] needs, since the header declares [populatePragmaMetadata]
    [void] while the spec makes a pragma entry that is not a key/value pair a
    failure of [extract()]. *)
Definition pragmaShapeOk (PragmaMetadata : option llvm_NamedMDNode) : bool :=
  forallb (fun entry => bool_decide (is_Some (entryKeyValue entry)))
          (entriesOf PragmaMetadata).

(** Modelled from the spec: [populatePragmaMetadata], declared [void] in the
    header without a body. It copies the key/value pairs of a present pragma
    node into the two parallel tables and has no failure channel. *)
Definition populatePragmaMetadata (PragmaMetadata : option llvm_NamedMDNode)
    (this : MetadataExtractor) : MetadataExtractor :=
  match PragmaMetadata with
  | None => this
  | Some node =>
      let pragmas := omap entryKeyValue node in
      set_Pragma (length pragmas) (pragmas.*1) (pragmas.*2) this
  end.

(** Modelled from the spec: reading one scalar metadata entry (no helper for
    it is declared in the header). An entry that is absent, or present with
    zero entries, leaves the field at the value it had. A present node holds
    the scalar as its one entry, a single integer constant; a found node of
    any other shape (a non-integer where an integer is expected, operands or
    entries beyond the one) is a failure, [None]. *)
Definition scalarOf (node : option llvm_NamedMDNode) (current : Z) : option Z :=
  match entriesOf node with
  | [] => Some current
  | [entry] => entryUInt32 entry
  | _ => None
  end.

(** Modelled from the spec: the float-precision flag (its encoding is not in
    the header), read against the values of [enum RSFloatPrecision]: 0 is
    Full, anything else is Relaxed. *)
Definition precisionOfFlag (flag : Z) : RSFloatPrecision :=
  if flag =? RSFloatPrecision_value RS_FP_Full then RS_FP_Full else RS_FP_Relaxed.

(** Modelled from the spec: the three scalar entries (compiler version,
    optimization level, float-precision flag), which [extract()] reads along
    with the tables; its body is not in the header. A scalar node of
    unexpected shape is a failure like any other found node, [None]. *)
Definition populateScalars (m : llvm_Module) (this : MetadataExtractor)
    : option MetadataExtractor :=
  version ← scalarOf (getNamedMetadata m CompilerVersionMetadataName)
                     (mCompilerVersion this);
  level ← scalarOf (getNamedMetadata m OptimizationLevelMetadataName)
                   (mOptimizationLevel this);
  flag ← scalarOf (getNamedMetadata m FloatPrecisionMetadataName)
                  (RSFloatPrecision_value (mRSFloatPrecision this));
  Some (set_scalars version level (precisionOfFlag flag) this).

(** Modelled from the spec: the walk over the well-known metadata nodes of a
    module that [extract()] performs (its body is not in the header). Every
    table is populated or none is: the first failure abandons the walk. *)
Definition populateAll (m : llvm_Module) (this : MetadataExtractor)
    : option MetadataExtractor :=
  this ← populateVarNameMetadata (getNamedMetadata m ExportVarMetadataName) this;
  this ← populateFuncNameMetadata (getNamedMetadata m ExportFuncMetadataName) this;
  this ← populateForEachMetadata (getNamedMetadata m ExportForEachNameMetadataName)
                                 (getNamedMetadata m ExportForEachMetadataName) this;
  this ← (if pragmaShapeOk (getNamedMetadata m PragmaMetadataName)
          then Some (populatePragmaMetadata (getNamedMetadata m PragmaMetadataName) this)
          else None);
  this ← populateObjectSlotMetadata (getNamedMetadata m ObjectSlotMetadataName) this;
  populateScalars m this.

(** Modelled from the spec: the module [extract()] works on (its body is not
    in the header). A borrowed module is used as it is; raw bytes are parsed
    first, the parsed module is new in the store, and no backing
    representation or malformed bitcode is a failure. *)
Definition acquireModule `{BitcodeReader} (store : gmap handle llvm_Module)
    (this : MetadataExtractor) : option (handle * gmap handle llvm_Module) :=
  match mModule this with
  | Some h => Some (h, store)
  | None =>
      bitcode ← mBitcode this;
      m ← ParseBitcodeFile (take (mBitcodeSize this) bitcode);
      let h := fresh (dom store) in
      Some (h, <[h := m]> store)
  end.

(** What a call of [extract()] leaves behind: the returned flag, the
    instance, and the store of modules. *)
Record ExtractResult : Type := {
  succeeded : bool;
  instance : MetadataExtractor;
  modules : gmap handle llvm_Module
}.

(** Modelled from the spec: [bool extract()], declared in the header without
    a body. On success all tables are populated; on failure the tables stay
    as they were. A handle that names no live module is outside the contract
    and reported as a failure. *)
Definition extract `{BitcodeReader} (store : gmap handle llvm_Module)
    (this : MetadataExtractor) : ExtractResult :=
  match acquireModule store this with
  | None => {| succeeded := false; instance := this; modules := store |}
  | Some (h, store') =>
      let this' := set_module h this in
      match store' !! h with
      | None => {| succeeded := false; instance := this'; modules := store' |}
      | Some m =>
          match populateAll m this' with
          | Some populated =>
              {| succeeded := true; instance := populated; modules := store' |}
          | None =>
              {| succeeded := false; instance := this'; modules := store' |}
          end
      end
  end.

(** ** Vocabulary of the statements *)

(** The module that an instance extracts from: the borrowed module of the
    module constructor, or the module the bytes of the bitcode constructor
    parse into. *)
Inductive Backs `{BitcodeReader} (store : gmap handle llvm_Module)
    : MetadataExtractor -> llvm_Module -> Prop :=
| Backs_module (h : handle) (m : llvm_Module) :
    store !! h = Some m ->
    Backs store (MetadataExtractor_of_module h) m
| Backs_bitcode (bitcode : list byte) (bitcodeSize : nat) (m : llvm_Module) :
    ParseBitcodeFile (take bitcodeSize bitcode) = Some m ->
    Backs store (MetadataExtractor_of_bitcode (Some bitcode) bitcodeSize) m.


(** Every count accessor returns 0. *)
Definition counts_zero (this : MetadataExtractor) : Prop :=
  getExportVarCount this = 0%nat /\
  getExportFuncCount this = 0%nat /\
  getExportForEachSignatureCount this = 0%nat /\
  getPragmaCount this = 0%nat /\
  getObjectSlotCount this = 0%nat.

(** The empty/zero state of all accessors. *)
Definition accessors_default (this : MetadataExtractor) : Prop :=
  counts_zero this /\
  getExportVarNameList this = [] /\
  getExportFuncNameList this = [] /\
  getExportForEachNameList this = [] /\
  getExportForEachSignatureList this = [] /\
  getPragmaKeyList this = [] /\
  getPragmaValueList this = [] /\
  getObjectSlotList this = [] /\
  getCompilerVersion this = 0 /\
  getOptimizationLevel this = 0 /\
  getRSFloatPrecision this = RS_FP_Full.

(** Every owned table has as many elements as its count field says. *)
Record TablesConsistent (this : MetadataExtractor) : Prop := {
  consistent_var :
    length (mExportVarNameList this) = mExportVarCount this;
  consistent_func :
    length (mExportFuncNameList this) = mExportFuncCount this;
  consistent_foreach_names :
    length (mExportForEachNameList this) = mExportForEachSignatureCount this;
  consistent_foreach_signatures :
    length (mExportForEachSignatureList this) = mExportForEachSignatureCount this;
  consistent_pragma_keys :
    length (mPragmaKeyList this) = mPragmaCount this;
  consistent_pragma_values :
    length (mPragmaValueList this) = mPragmaCount this;
  consistent_slots :
    length (mObjectSlotList this) = mObjectSlotCount this
}.

(** A scalar node of the expected shape: absent or without entries, or one
    entry that is a single integer constant. *)
Definition scalar_shape_ok (node : option llvm_NamedMDNode) : Prop :=
  entriesOf node = [] \/ exists n, entriesOf node = [[IntegerConstant n]].


(** The six masks in the order of the header. *)
Definition signature_masks : list Z := [0x01; 0x02; 0x04; 0x08; 0x10; 0x20].

(** ** Sample modules *)

Definition module_of (nodes : list (MetadataName * llvm_NamedMDNode)) : llvm_Module :=
  {| getNamedMetadata := fun name =>
       snd <$> List.find (fun entry => bool_decide (fst entry = name)) nodes |}.

(** The hand-built module of the spec's test: one exported kernel "foo"
    tagged with the signature value 0x0B, and one pragma. *)
Definition kernel_module : llvm_Module :=
  module_of
    [ (ExportForEachNameMetadataName, [[StringConstant "foo"]]);
      (ExportForEachMetadataName, [[IntegerConstant 0x0B]]);
      (PragmaMetadataName, [[StringConstant "version"; StringConstant "1"]]) ].

(** A module that carries none of the well-known nodes. *)
Definition bare_module : llvm_Module := module_of [].

(** Three kernel names against two signatures. *)
Definition mismatched_module : llvm_Module :=
  module_of
    [ (ExportForEachNameMetadataName,
       [[StringConstant "root"]; [StringConstant "foo"]; [StringConstant "bar"]]);
      (ExportForEachMetadataName, [[IntegerConstant 0x1F]; [IntegerConstant 0x0B]]) ].

(** No category, the three scalars present: compiler version 2103,
    optimization level 3, relaxed precision. *)
Definition scalars_module : llvm_Module :=
  module_of
    [ (CompilerVersionMetadataName, [[IntegerConstant 2103]]);
      (OptimizationLevelMetadataName, [[IntegerConstant 3]]);
      (FloatPrecisionMetadataName, [[IntegerConstant 1]]) ].

(** No category, and a compiler version node that holds a string. *)
Definition malformed_version_module : llvm_Module :=
  module_of [ (CompilerVersionMetadataName, [[StringConstant "oops"]]) ].

(** A reader that rejects every buffer, and one that accepts every buffer as
    the bare module. *)
Definition rejecting_reader : BitcodeReader := fun _ => None.

Definition bare_reader : BitcodeReader := fun _ => Some bare_module.

Definition sample_store : gmap handle llvm_Module :=
  <[3%positive := mismatched_module]>
    (<[2%positive := bare_module]> (<[1%positive := kernel_module]> ∅)).

(** Instances over the samples: one borrowing each stored module, and one
    constructed from a two-byte buffer. *)
Definition kernel_extractor : MetadataExtractor :=
  MetadataExtractor_of_module 1%positive.

Definition mismatched_extractor : MetadataExtractor :=
  MetadataExtractor_of_module 3%positive.

Definition bytes_extractor : MetadataExtractor :=
  MetadataExtractor_of_bitcode (Some [Byte.x42; Byte.x43]) 2.

(** A second store, for the modules that carry only scalar entries. *)
Definition scalar_store : gmap handle llvm_Module :=
  <[2%positive := malformed_version_module]> (<[1%positive := scalars_module]> ∅).

Definition scalars_extractor : MetadataExtractor :=
  MetadataExtractor_of_module 1%positive.


(** * Properties *)

(** ** The signature bit-field protocol *)

Section SignatureBits.

Lemma uint32_to_bool_true (v : Z) : uint32_to_bool v = true <-> v <> 0.
Proof.
  unfold uint32_to_bool. rewrite negb_true_iff. apply Z.eqb_neq.
Qed.

Lemma uint32_to_bool_false (v : Z) : uint32_to_bool v = false <-> v = 0.
Proof.
  unfold uint32_to_bool. rewrite negb_false_iff. apply Z.eqb_eq.
Qed.

(** Masking with a single bit leaves that bit and nothing else. *)
Lemma land_single_bit (s k : Z) :
  0 <= k -> Z.land s (2 ^ k) = if Z.testbit s k then 2 ^ k else 0.
Proof.
  intros Hk. apply Z.bits_inj'. intros i Hi.
  rewrite Z.land_spec, Z.pow2_bits_eqb by assumption.
  destruct (Z.eqb_spec k i) as [->|Hne].
  - rewrite andb_true_r. destruct (Z.testbit s i) eqn:Hbit.
    + rewrite Z.pow2_bits_true; trivial.
    + now rewrite Z.bits_0.
  - rewrite andb_false_r. destruct (Z.testbit s k).
    + rewrite Z.pow2_bits_false; trivial.
    + now rewrite Z.bits_0.
Qed.

(** A single-bit mask test reads exactly that bit of the signature. *)
Lemma mask_test_testbit (s k : Z) :
  0 <= k -> uint32_to_bool (Z.land s (2 ^ k)) = Z.testbit s k.
Proof.
  intros Hk. rewrite land_single_bit by assumption.
  destruct (Z.testbit s k).
  - apply uint32_to_bool_true. apply Z.pow_nonzero; lia.
  - reflexivity.
Qed.

(** Masking first with the six defined bits changes no single-bit test
    among them. *)
Lemma land_defined_bits (s mask : Z) :
  Z.land 0x3F mask = mask -> Z.land (Z.land s 0x3F) mask = Z.land s mask.
Proof.
  intros Hmask. now rewrite <- Z.land_assoc, Hmask.
Qed.

End SignatureBits.

Ltac solve_uint32 := unfold is_uint32, UINT32_MODULUS; lia.

(** C1: for every 32-bit signature value [s], each of the six predicates is
    true exactly when [s] masked with its own bit (0x01 In, 0x02 Out, 0x04
    UsrData, 0x08 X, 0x10 Y, 0x20 Kernel) is non-zero. The predicates are
    total functions of [s] alone. *)
Theorem hasForEachSignature_mask_test (s : Z) :
  is_uint32 s ->
  (hasForEachSignatureIn s = true <-> Z.land s 0x01 <> 0) /\
  (hasForEachSignatureOut s = true <-> Z.land s 0x02 <> 0) /\
  (hasForEachSignatureUsrData s = true <-> Z.land s 0x04 <> 0) /\
  (hasForEachSignatureX s = true <-> Z.land s 0x08 <> 0) /\
  (hasForEachSignatureY s = true <-> Z.land s 0x10 <> 0) /\
  (hasForEachSignatureKernel s = true <-> Z.land s 0x20 <> 0).
Proof.
  intros _.
  unfold hasForEachSignatureIn, hasForEachSignatureOut,
    hasForEachSignatureUsrData, hasForEachSignatureX, hasForEachSignatureY,
    hasForEachSignatureKernel.
  repeat split; intros Hs; now apply uint32_to_bool_true.
Qed.

Lemma hasForEachSignature_mask_test_witness :
  is_uint32 0x2A /\
  (hasForEachSignatureIn 0x2A = true <-> Z.land 0x2A 0x01 <> 0) /\
  (hasForEachSignatureOut 0x2A = true <-> Z.land 0x2A 0x02 <> 0) /\
  (hasForEachSignatureUsrData 0x2A = true <-> Z.land 0x2A 0x04 <> 0) /\
  (hasForEachSignatureX 0x2A = true <-> Z.land 0x2A 0x08 <> 0) /\
  (hasForEachSignatureY 0x2A = true <-> Z.land 0x2A 0x10 <> 0) /\
  (hasForEachSignatureKernel 0x2A = true <-> Z.land 0x2A 0x20 <> 0).
Proof.
  split; [solve_uint32 | apply (hasForEachSignature_mask_test 0x2A); solve_uint32].
Defined.

(** C2: on the signature value 0x0B the predicates In, Out and X return
    true, and Y, UsrData and Kernel return false. *)
Theorem hasForEachSignature_0x0B :
  hasForEachSignatureIn 0x0B = true /\
  hasForEachSignatureOut 0x0B = true /\
  hasForEachSignatureX 0x0B = true /\
  hasForEachSignatureY 0x0B = false /\
  hasForEachSignatureUsrData 0x0B = false /\
  hasForEachSignatureKernel 0x0B = false.
Proof. repeat split. Qed.

(** C3: each predicate depends only on its own bit. Two 32-bit signature
    values that agree under a predicate's mask get the same answer from that
    predicate, and two values that agree on the six defined bits get the
    same answer from all six predicates, whatever their other bits are. *)
Theorem hasForEachSignature_bit_locality (s t : Z) :
  is_uint32 s -> is_uint32 t ->
  (Z.land s 0x01 = Z.land t 0x01 ->
     hasForEachSignatureIn s = hasForEachSignatureIn t) /\
  (Z.land s 0x02 = Z.land t 0x02 ->
     hasForEachSignatureOut s = hasForEachSignatureOut t) /\
  (Z.land s 0x04 = Z.land t 0x04 ->
     hasForEachSignatureUsrData s = hasForEachSignatureUsrData t) /\
  (Z.land s 0x08 = Z.land t 0x08 ->
     hasForEachSignatureX s = hasForEachSignatureX t) /\
  (Z.land s 0x10 = Z.land t 0x10 ->
     hasForEachSignatureY s = hasForEachSignatureY t) /\
  (Z.land s 0x20 = Z.land t 0x20 ->
     hasForEachSignatureKernel s = hasForEachSignatureKernel t) /\
  (Z.land s 0x3F = Z.land t 0x3F -> signature_flags s = signature_flags t).
Proof.
  intros _ _.
  unfold signature_flags, hasForEachSignatureIn, hasForEachSignatureOut,
    hasForEachSignatureUsrData, hasForEachSignatureX, hasForEachSignatureY,
    hasForEachSignatureKernel.
  repeat split; try (intros ->; reflexivity).
  intros Hlow.
  rewrite <- (land_defined_bits s 0x01), <- (land_defined_bits s 0x02),
    <- (land_defined_bits s 0x04), <- (land_defined_bits s 0x08),
    <- (land_defined_bits s 0x10), <- (land_defined_bits s 0x20)
    by reflexivity.
  rewrite Hlow.
  now rewrite !land_defined_bits by reflexivity.
Qed.

Lemma hasForEachSignature_bit_locality_witness :
  is_uint32 0x0B /\ is_uint32 0xFFFFFFCB /\
  (Z.land 0x0B 0x01 = Z.land 0xFFFFFFCB 0x01 ->
     hasForEachSignatureIn 0x0B = hasForEachSignatureIn 0xFFFFFFCB) /\
  (Z.land 0x0B 0x02 = Z.land 0xFFFFFFCB 0x02 ->
     hasForEachSignatureOut 0x0B = hasForEachSignatureOut 0xFFFFFFCB) /\
  (Z.land 0x0B 0x04 = Z.land 0xFFFFFFCB 0x04 ->
     hasForEachSignatureUsrData 0x0B = hasForEachSignatureUsrData 0xFFFFFFCB) /\
  (Z.land 0x0B 0x08 = Z.land 0xFFFFFFCB 0x08 ->
     hasForEachSignatureX 0x0B = hasForEachSignatureX 0xFFFFFFCB) /\
  (Z.land 0x0B 0x10 = Z.land 0xFFFFFFCB 0x10 ->
     hasForEachSignatureY 0x0B = hasForEachSignatureY 0xFFFFFFCB) /\
  (Z.land 0x0B 0x20 = Z.land 0xFFFFFFCB 0x20 ->
     hasForEachSignatureKernel 0x0B = hasForEachSignatureKernel 0xFFFFFFCB) /\
  (Z.land 0x0B 0x3F = Z.land 0xFFFFFFCB 0x3F ->
     signature_flags 0x0B = signature_flags 0xFFFFFFCB).
Proof.
  split; [solve_uint32 |].
  split; [solve_uint32 |].
  apply (hasForEachSignature_bit_locality 0x0B 0xFFFFFFCB); solve_uint32.
Defined.

(** C9: the six masks are pairwise disjoint. On each single-bit value 0x01,
    0x02, 0x04, 0x08, 0x10, 0x20 exactly one of the six predicates returns
    true, namely the one that owns the bit. *)
Theorem hasForEachSignature_one_hot :
  Forall (fun mask => count_set (signature_flags mask) = 1%nat) signature_masks /\
  signature_flags <$> signature_masks =
    [ [true; false; false; false; false; false];
      [false; true; false; false; false; false];
      [false; false; true; false; false; false];
      [false; false; false; true; false; false];
      [false; false; false; false; true; false];
      [false; false; false; false; false; true] ].
Proof.
  split; [| reflexivity].
  unfold signature_masks. repeat constructor.
Qed.

(** C10: on the signature value 0 all six predicates return false. *)
Theorem hasForEachSignature_zero :
  hasForEachSignatureIn 0 = false /\
  hasForEachSignatureOut 0 = false /\
  hasForEachSignatureUsrData 0 = false /\
  hasForEachSignatureX 0 = false /\
  hasForEachSignatureY 0 = false /\
  hasForEachSignatureKernel 0 = false.
Proof. repeat split. Qed.

(** ** The helpers of [extract()] *)

Section Helpers.

Implicit Types (this populated : MetadataExtractor).
Implicit Types (node : option llvm_NamedMDNode).

(** The two ways the ForEach helper can return [true]: nothing to do, or
    two decoded lists of the same length. *)
Lemma populateForEachMetadata_Some Names Signatures this populated :
  populateForEachMetadata Names Signatures this = Some populated ->
  (Names = None /\ Signatures = None /\ populated = this) \/
  (length (entriesOf Names) = length (entriesOf Signatures) /\
   exists names signatures,
     mapM entryString (entriesOf Names) = Some names /\
     mapM entryUInt32 (entriesOf Signatures) = Some signatures /\
     populated = set_ExportForEach (length (entriesOf Signatures))
                   names signatures this).
Proof.
  intros Hrun. unfold populateForEachMetadata in Hrun.
  destruct Names as [ns|], Signatures as [ss|];
    [right | right | right | left; split_and!; congruence];
    (case_bool_decide; [| discriminate]);
    (destruct (mapM entryString _) as [names|] eqn:Hn; [| discriminate]);
    (destruct (mapM entryUInt32 _) as [signatures|] eqn:Hs; [| discriminate]);
    simpl in Hrun; injection Hrun as <-; eauto 10.
Qed.

(** *** Every helper keeps each table at the length its count says *)

Lemma empty_instance_consistent module bitcode bitcodeSize :
  TablesConsistent (empty_instance module bitcode bitcodeSize).
Proof. constructor; reflexivity. Qed.

Lemma Constructed_consistent this : Constructed this -> TablesConsistent this.
Proof. intros []; apply empty_instance_consistent. Qed.

Lemma set_module_consistent h this :
  TablesConsistent this -> TablesConsistent (set_module h this).
Proof. intros []; constructor; assumption. Qed.

Lemma populateVarNameMetadata_consistent node this populated :
  TablesConsistent this ->
  populateVarNameMetadata node this = Some populated ->
  TablesConsistent populated.
Proof.
  intros [] Hrun. destruct node as [entries|]; simplify_option_eq.
  - constructor; simpl; try assumption.
    symmetry. eauto using length_mapM.
  - constructor; assumption.
Qed.

Lemma populateFuncNameMetadata_consistent node this populated :
  TablesConsistent this ->
  populateFuncNameMetadata node this = Some populated ->
  TablesConsistent populated.
Proof.
  intros [] Hrun. destruct node as [entries|]; simplify_option_eq.
  - constructor; simpl; try assumption.
    symmetry. eauto using length_mapM.
  - constructor; assumption.
Qed.

Lemma populateObjectSlotMetadata_consistent node this populated :
  TablesConsistent this ->
  populateObjectSlotMetadata node this = Some populated ->
  TablesConsistent populated.
Proof.
  intros [] Hrun. destruct node as [entries|]; simplify_option_eq.
  - constructor; simpl; try assumption.
    symmetry. eauto using length_mapM.
  - constructor; assumption.
Qed.

(** When the ForEach helper succeeds on present nodes, both tables have
    the length of the signatures node. *)
Lemma populateForEachMetadata_consistent Names Signatures this populated :
  TablesConsistent this ->
  populateForEachMetadata Names Signatures this = Some populated ->
  TablesConsistent populated.
Proof.
  intros Hthis Hrun.
  destruct (populateForEachMetadata_Some _ _ _ _ Hrun)
    as [(_ & _ & ->) | (Hlen & names & signatures & Hn & Hs & ->)];
    [assumption |].
  destruct Hthis. constructor; simpl; try assumption.
  - apply length_mapM in Hn. congruence.
  - apply length_mapM in Hs. congruence.
Qed.

Lemma populatePragmaMetadata_consistent node this :
  TablesConsistent this ->
  TablesConsistent (populatePragmaMetadata node this).
Proof.
  intros []. destruct node as [entries|]; simpl.
  - constructor; simpl; try assumption; apply length_fmap.
  - constructor; assumption.
Qed.

(** A successful read of the scalars rewrites the three scalar fields and
    nothing else. *)
Lemma populateScalars_Some m this populated :
  populateScalars m this = Some populated ->
  exists version level precision,
    populated = set_scalars version level precision this.
Proof.
  unfold populateScalars. intros Hrun.
  destruct (scalarOf _ (mCompilerVersion this)) as [version|]; [| discriminate].
  simpl in Hrun.
  destruct (scalarOf _ (mOptimizationLevel this)) as [level|]; [| discriminate].
  simpl in Hrun.
  destruct (scalarOf _ (RSFloatPrecision_value _)) as [flag|]; [| discriminate].
  simpl in Hrun. injection Hrun as <-. eauto.
Qed.

Lemma populateScalars_consistent m this populated :
  TablesConsistent this ->
  populateScalars m this = Some populated ->
  TablesConsistent populated.
Proof.
  intros [] Hrun.
  destruct (populateScalars_Some _ _ _ Hrun) as (version & level & precision & ->).
  constructor; assumption.
Qed.


(** Any other shape is a failure, whatever the field held. *)
Lemma scalarOf_is_Some node current :
  is_Some (scalarOf node current) -> scalar_shape_ok node.
Proof.
  unfold scalarOf, scalar_shape_ok. intros [value Hvalue].
  destruct (entriesOf node) as [|entry [|second rest]]; [left; reflexivity | | discriminate].
  right. unfold entryUInt32 in Hvalue.
  destruct entry as [|[text|n] [|extra more]]; try discriminate. eauto.
Qed.


(** *** The walk as a whole *)

(** A successful walk is the five helpers in turn, then the scalars. *)
Lemma populateAll_Some m this populated :
  populateAll m this = Some populated ->
  exists s1 s2 s3 s5,
    populateVarNameMetadata
      (getNamedMetadata m ExportVarMetadataName) this = Some s1 /\
    populateFuncNameMetadata
      (getNamedMetadata m ExportFuncMetadataName) s1 = Some s2 /\
    populateForEachMetadata
      (getNamedMetadata m ExportForEachNameMetadataName)
      (getNamedMetadata m ExportForEachMetadataName) s2 = Some s3 /\
    pragmaShapeOk (getNamedMetadata m PragmaMetadataName) = true /\
    populateObjectSlotMetadata
      (getNamedMetadata m ObjectSlotMetadataName)
      (populatePragmaMetadata (getNamedMetadata m PragmaMetadataName) s3)
      = Some s5 /\
    populateScalars m s5 = Some populated.
Proof.
  intros Hrun. unfold populateAll in Hrun.
  destruct (populateVarNameMetadata _ this) as [s1|] eqn:E1; [| discriminate].
  simpl in Hrun.
  destruct (populateFuncNameMetadata _ s1) as [s2|] eqn:E2; [| discriminate].
  simpl in Hrun.
  destruct (populateForEachMetadata _ _ s2) as [s3|] eqn:E3; [| discriminate].
  simpl in Hrun.
  destruct (pragmaShapeOk _) eqn:E4; [| discriminate].
  simpl in Hrun.
  destruct (populateObjectSlotMetadata _ _) as [s5|] eqn:E5; [| discriminate].
  simpl in Hrun.
  exists s1, s2, s3, s5. split_and!; reflexivity || assumption.
Qed.

Lemma populateAll_consistent m this populated :
  TablesConsistent this ->
  populateAll m this = Some populated ->
  TablesConsistent populated.
Proof.
  intros Hthis Hrun.
  destruct (populateAll_Some _ _ _ Hrun)
    as (s1 & s2 & s3 & s5 & E1 & E2 & E3 & _ & E5 & E6).
  eapply populateScalars_consistent; [| exact E6].
  eapply populateObjectSlotMetadata_consistent; [| exact E5].
  apply populatePragmaMetadata_consistent.
  eapply populateForEachMetadata_consistent; [| exact E3].
  eapply populateFuncNameMetadata_consistent; [| exact E2].
  eapply populateVarNameMetadata_consistent; [| exact E1].
  exact Hthis.
Qed.


(** A length mismatch between the two ForEach nodes stops the helper. *)
Lemma populateForEachMetadata_mismatch names signatures this :
  length names <> length signatures ->
  populateForEachMetadata (Some names) (Some signatures) this = None.
Proof.
  intros Hlen. unfold populateForEachMetadata. simpl.
  rewrite bool_decide_eq_false_2 by assumption. reflexivity.
Qed.

Lemma populateAll_mismatch m names signatures this :
  getNamedMetadata m ExportForEachNameMetadataName = Some names ->
  getNamedMetadata m ExportForEachMetadataName = Some signatures ->
  length names <> length signatures ->
  populateAll m this = None.
Proof.
  intros Hnames Hsigs Hlen. unfold populateAll.
  destruct (populateVarNameMetadata _ this) as [s1|]; [| reflexivity].
  simpl.
  destruct (populateFuncNameMetadata _ s1) as [s2|]; [| reflexivity].
  simpl.
  rewrite Hnames, Hsigs, populateForEachMetadata_mismatch by assumption.
  reflexivity.
Qed.

End Helpers.

(** ** [extract()] *)

Section Extract.

Context `{BitcodeReader}.

Implicit Types (store : gmap handle llvm_Module).
Implicit Types (this : MetadataExtractor).

(** For an instance backed by [m], extraction is the walk over [m]. *)
Lemma extract_Backs store this m :
  Backs store this m ->
  exists h store',
    extract store this =
      match populateAll m (set_module h this) with
      | Some populated =>
          {| succeeded := true; instance := populated; modules := store' |}
      | None =>
          {| succeeded := false; instance := set_module h this;
             modules := store' |}
      end.
Proof.
  intros [h m' Hlive | bitcode bitcodeSize m' Hparse].
  - exists h, store. unfold extract. simpl. rewrite Hlive. reflexivity.
  - exists (fresh (dom store)), (<[fresh (dom store) := m']> store).
    unfold extract, acquireModule. simpl. rewrite Hparse. simpl.
    rewrite lookup_insert_eq. reflexivity.
Qed.

Lemma Backs_Constructed store this m : Backs store this m -> Constructed this.
Proof. intros []; constructor. Qed.

(** Whatever [extract()] returns, the instance it leaves has its tables
    at the lengths their counts say, provided the instance had before. *)
Lemma extract_consistent store this :
  TablesConsistent this -> TablesConsistent (instance (extract store this)).
Proof.
  intros Hthis. unfold extract.
  destruct (acquireModule store this) as [[h store']|]; [| assumption].
  simpl. destruct (store' !! h) as [m|]; simpl;
    [| now apply set_module_consistent].
  destruct (populateAll m _) as [populated|] eqn:Hrun; simpl.
  - eapply populateAll_consistent; [| exact Hrun].
    now apply set_module_consistent.
  - now apply set_module_consistent.
Qed.

(** A failed [extract()] leaves every accessor as it was. *)
Lemma extract_failure_accessors store this :
  succeeded (extract store this) = false ->
  forall P : MetadataExtractor -> Prop,
    (forall h, P this -> P (set_module h this)) ->
    P this -> P (instance (extract store this)).
Proof.
  unfold extract. intros Hfail P Hset Hthis.
  destruct (acquireModule store this) as [[h store']|]; [| assumption].
  simpl in *. destruct (store' !! h) as [m|]; simpl in *; [| now apply Hset].
  destruct (populateAll m _); simpl in *; [discriminate | now apply Hset].
Qed.

End Extract.

(** *** Worked examples *)

(** The spec's hand-built module: one kernel "foo" with signature 0x0B. *)
Example extract_kernel_module :
  let result := @extract rejecting_reader sample_store kernel_extractor in
  succeeded result = true /\
  getExportForEachNameList (instance result) = ["foo"%string] /\
  getExportForEachSignatureList (instance result) = [0x0B] /\
  getExportForEachSignatureCount (instance result) = 1%nat /\
  getPragmaKeyList (instance result) = ["version"%string] /\
  getPragmaValueList (instance result) = ["1"%string] /\
  getPragmaCount (instance result) = 1%nat /\
  modules result = sample_store.
Proof. vm_compute. repeat split. Qed.

(** Bytes that do not parse: failure, nothing populated, store untouched. *)
Example extract_malformed_bitcode :
  let result := @extract rejecting_reader sample_store bytes_extractor in
  succeeded result = false /\
  instance result = bytes_extractor /\
  modules result = sample_store.
Proof. vm_compute. repeat split. Qed.

(** Bytes that parse: the parsed module is new in the store, at handle 4. *)
Example extract_parsed_bitcode :
  let result := @extract bare_reader sample_store bytes_extractor in
  succeeded result = true /\
  mModule (instance result) = Some 4%positive /\
  modules result !! 4%positive = Some bare_module.
Proof. vm_compute. repeat split. Qed.

(** A non-string kernel name and a pragma that is not a pair both fail. *)
Example extract_bad_shapes :
  populateAll
    (module_of [ (ExportForEachNameMetadataName, [[IntegerConstant 7]]);
                 (ExportForEachMetadataName, [[IntegerConstant 1]]) ])
    kernel_extractor = None /\
  populateAll
    (module_of [ (PragmaMetadataName, [[StringConstant "lonely"]]) ])
    kernel_extractor = None.
Proof. split; reflexivity. Qed.

(** The scalars of a module that carries only scalars. *)
Example extract_scalars_module :
  let result := @extract rejecting_reader scalar_store scalars_extractor in
  succeeded result = true /\
  getCompilerVersion (instance result) = 2103 /\
  getOptimizationLevel (instance result) = 3 /\
  getRSFloatPrecision (instance result) = RS_FP_Relaxed.
Proof. vm_compute. repeat split. Qed.

(** A scalar node with a second entry, or with a second operand, fails. *)
Example scalarOf_bad_shapes :
  scalarOf (Some [[IntegerConstant 1]; [IntegerConstant 2]]) 0 = None /\
  scalarOf (Some [[IntegerConstant 1; IntegerConstant 2]]) 0 = None /\
  scalarOf (Some [[StringConstant "3"]]) 0 = None /\
  scalarOf (Some []) 7 = Some 7 /\
  scalarOf None 7 = Some 7.
Proof. repeat split. Qed.

(** A signature constant wider than 32 bits is stored reduced. *)
Example entryUInt32_wraps :
  entryUInt32 [IntegerConstant (2 ^ 32 + 0x0B)] = Some 0x0B.
Proof. reflexivity. Qed.

(** C4: after [extract()] has returned success on a constructed instance,
    the ForEach name list and the ForEach signature list have the same
    length, which is [getExportForEachSignatureCount()], and the pragma key
    list and the pragma value list have the same length, which is
    [getPragmaCount()]. *)
Theorem extract_parallel_tables `{BitcodeReader}
    (store : gmap handle llvm_Module) (this : MetadataExtractor) :
  Constructed this ->
  succeeded (extract store this) = true ->
  length (getExportForEachNameList (instance (extract store this))) =
    length (getExportForEachSignatureList (instance (extract store this))) /\
  length (getExportForEachNameList (instance (extract store this))) =
    getExportForEachSignatureCount (instance (extract store this)) /\
  length (getPragmaKeyList (instance (extract store this))) =
    length (getPragmaValueList (instance (extract store this))) /\
  length (getPragmaKeyList (instance (extract store this))) =
    getPragmaCount (instance (extract store this)).
Proof.
  intros Hnew _.
  destruct (extract_consistent store this (Constructed_consistent _ Hnew))
    as [_ _ Hnames Hsigs Hkeys Hvalues _].
  unfold getExportForEachNameList, getExportForEachSignatureList,
    getExportForEachSignatureCount, getPragmaKeyList, getPragmaValueList,
    getPragmaCount.
  split_and!; congruence.
Qed.

Lemma extract_parallel_tables_witness :
  Constructed kernel_extractor /\
  succeeded (@extract rejecting_reader sample_store kernel_extractor) = true /\
  length (getExportForEachNameList
            (instance (@extract rejecting_reader sample_store kernel_extractor))) =
    length (getExportForEachSignatureList
              (instance (@extract rejecting_reader sample_store kernel_extractor))) /\
  length (getExportForEachNameList
            (instance (@extract rejecting_reader sample_store kernel_extractor))) =
    getExportForEachSignatureCount
      (instance (@extract rejecting_reader sample_store kernel_extractor)) /\
  length (getPragmaKeyList
            (instance (@extract rejecting_reader sample_store kernel_extractor))) =
    length (getPragmaValueList
              (instance (@extract rejecting_reader sample_store kernel_extractor))) /\
  length (getPragmaKeyList
            (instance (@extract rejecting_reader sample_store kernel_extractor))) =
    getPragmaCount
      (instance (@extract rejecting_reader sample_store kernel_extractor)).
Proof.
  split; [constructor |].
  split; [vm_compute; reflexivity |].
  apply (@extract_parallel_tables rejecting_reader sample_store kernel_extractor);
    [constructor | vm_compute; reflexivity].
Defined.




(** C6: when the ForEach names node and the ForEach signatures node of the
    module have different lengths, [extract()] returns false. *)
Theorem extract_foreach_length_mismatch `{BitcodeReader}
    (store : gmap handle llvm_Module) (this : MetadataExtractor)
    (m : llvm_Module) (names signatures : llvm_NamedMDNode) :
  Backs store this m ->
  getNamedMetadata m ExportForEachNameMetadataName = Some names ->
  getNamedMetadata m ExportForEachMetadataName = Some signatures ->
  length names <> length signatures ->
  succeeded (extract store this) = false.
Proof.
  intros Hbacks Hnames Hsigs Hlen.
  destruct (extract_Backs store this m Hbacks) as (h & store' & ->).
  now rewrite (populateAll_mismatch m names signatures) by assumption.
Qed.

Lemma extract_foreach_length_mismatch_witness :
  @Backs rejecting_reader sample_store mismatched_extractor mismatched_module /\
  getNamedMetadata mismatched_module ExportForEachNameMetadataName =
    Some [[StringConstant "root"]; [StringConstant "foo"]; [StringConstant "bar"]] /\
  getNamedMetadata mismatched_module ExportForEachMetadataName =
    Some [[IntegerConstant 0x1F]; [IntegerConstant 0x0B]] /\
  (3 <> 2)%nat /\
  succeeded (@extract rejecting_reader sample_store mismatched_extractor) = false.
Proof.
  assert (Hbacks :
    @Backs rejecting_reader sample_store mismatched_extractor mismatched_module)
    by (apply (@Backs_module rejecting_reader); reflexivity).
  assert (Hlen : (3 <> 2)%nat) by lia.
  split; [exact Hbacks |].
  split; [reflexivity |].
  split; [reflexivity |].
  split; [exact Hlen |].
  exact (@extract_foreach_length_mismatch rejecting_reader sample_store
           mismatched_extractor mismatched_module
           [[StringConstant "root"]; [StringConstant "foo"]; [StringConstant "bar"]]
           [[IntegerConstant 0x1F]; [IntegerConstant 0x0B]]
           Hbacks eq_refl eq_refl Hlen).
Defined.

(** C7: a freshly constructed instance answers every accessor with the
    empty/zero default: all counts 0, all lists empty, compiler version and
    optimization level 0, precision [RS_FP_Full]. The same holds after an
    [extract()] on it that did not succeed. *)
Theorem constructed_accessors_default `{BitcodeReader}
    (store : gmap handle llvm_Module) (this : MetadataExtractor) :
  Constructed this ->
  accessors_default this /\
  (succeeded (extract store this) = false ->
   accessors_default (instance (extract store this))).
Proof.
  intros Hnew.
  assert (Hdefault : accessors_default this)
    by (destruct Hnew; repeat split).
  split; [exact Hdefault |].
  intros Hfail.
  apply (extract_failure_accessors store this Hfail accessors_default);
    [| exact Hdefault].
  intros h Hthis. exact Hthis.
Qed.

Lemma constructed_accessors_default_witness :
  Constructed mismatched_extractor /\
  accessors_default mismatched_extractor /\
  succeeded (@extract rejecting_reader sample_store mismatched_extractor) = false /\
  accessors_default
    (instance (@extract rejecting_reader sample_store mismatched_extractor)).
Proof.
  assert (Hnew : Constructed mismatched_extractor) by constructor.
  assert (Hfail :
    succeeded (@extract rejecting_reader sample_store mismatched_extractor) = false)
    by (vm_compute; reflexivity).
  destruct (@constructed_accessors_default rejecting_reader sample_store
              mismatched_extractor Hnew) as [Hdefault Hafter].
  split; [exact Hnew |].
  split; [exact Hdefault |].
  split; [exact Hfail |].
  exact (Hafter Hfail).
Defined.

(** ** The signature predicates as bit reads

    Shared lemmas: each predicate is the read of one bit position of the
    signature. *)

Lemma hasForEachSignatureIn_testbit (s : Z) :
  hasForEachSignatureIn s = Z.testbit s 0.
Proof. apply (mask_test_testbit s 0). lia. Qed.

Lemma hasForEachSignatureOut_testbit (s : Z) :
  hasForEachSignatureOut s = Z.testbit s 1.
Proof. apply (mask_test_testbit s 1). lia. Qed.

Lemma hasForEachSignatureUsrData_testbit (s : Z) :
  hasForEachSignatureUsrData s = Z.testbit s 2.
Proof. apply (mask_test_testbit s 2). lia. Qed.

Lemma hasForEachSignatureX_testbit (s : Z) :
  hasForEachSignatureX s = Z.testbit s 3.
Proof. apply (mask_test_testbit s 3). lia. Qed.

Lemma hasForEachSignatureY_testbit (s : Z) :
  hasForEachSignatureY s = Z.testbit s 4.
Proof. apply (mask_test_testbit s 4). lia. Qed.

Lemma hasForEachSignatureKernel_testbit (s : Z) :
  hasForEachSignatureKernel s = Z.testbit s 5.
Proof. apply (mask_test_testbit s 5). lia. Qed.

Lemma signature_flags_testbit (s : Z) :
  signature_flags s =
    [ Z.testbit s 0; Z.testbit s 1; Z.testbit s 2;
      Z.testbit s 3; Z.testbit s 4; Z.testbit s 5 ].
Proof.
  unfold signature_flags.
  now rewrite hasForEachSignatureIn_testbit, hasForEachSignatureOut_testbit,
    hasForEachSignatureUsrData_testbit, hasForEachSignatureX_testbit,
    hasForEachSignatureY_testbit, hasForEachSignatureKernel_testbit.
Qed.

(** A property checked on 0 .. 63 holds of every value in that range. *)
Lemma below_64_check (P : Z -> bool) :
  forallb P (Z.of_nat <$> seq 0 64) = true ->
  forall r, 0 <= r < 64 -> P r = true.
Proof.
  intros Hall r Hr. rewrite forallb_forall in Hall. apply Hall.
  rewrite <- (Z2Nat.id r) by lia.
  apply in_map, in_seq. lia.
Qed.

(** The six answers only look at the value modulo 64. *)
Lemma signature_flags_mod_64 (s : Z) :
  signature_flags (s mod 64) = signature_flags s.
Proof.
  rewrite !signature_flags_testbit.
  change 64 with (2 ^ 6).
  now rewrite !Z.mod_pow2_bits_low by lia.
Qed.

Lemma land_0x3F_mod_64 (s : Z) : Z.land s 0x3F = s mod 64.
Proof. change 0x3F with (Z.ones 6). now rewrite Z.land_ones by lia. Qed.

(** The low six bits are the sum of the masks whose predicate holds. *)
Lemma low_six_bits_decompose (s : Z) :
  Z.land s 0x3F =
    (if hasForEachSignatureIn s then 0x01 else 0) +
    (if hasForEachSignatureOut s then 0x02 else 0) +
    (if hasForEachSignatureUsrData s then 0x04 else 0) +
    (if hasForEachSignatureX s then 0x08 else 0) +
    (if hasForEachSignatureY s then 0x10 else 0) +
    (if hasForEachSignatureKernel s then 0x20 else 0).
Proof.
  pose proof (signature_flags_mod_64 s) as Hflags.
  unfold signature_flags in Hflags.
  injection Hflags as <- <- <- <- <- <-.
  rewrite land_0x3F_mod_64.
  assert (Hr : 0 <= s mod 64 < 64) by (apply Z.mod_pos_bound; lia).
  apply Z.eqb_eq.
  revert Hr. generalize (s mod 64). intros r Hr.
  apply (below_64_check
           (fun r =>
              r =? (if hasForEachSignatureIn r then 0x01 else 0) +
                   (if hasForEachSignatureOut r then 0x02 else 0) +
                   (if hasForEachSignatureUsrData r then 0x04 else 0) +
                   (if hasForEachSignatureX r then 0x08 else 0) +
                   (if hasForEachSignatureY r then 0x10 else 0) +
                   (if hasForEachSignatureKernel r then 0x20 else 0)));
    [vm_compute; reflexivity | exact Hr].
Qed.

(** A set bit of a non-negative value bounds the value from below. *)
Lemma testbit_true_lower_bound (s k : Z) :
  0 <= s -> 0 <= k -> Z.testbit s k = true -> 2 ^ k <= s.
Proof.
  intros Hs Hk Hbit.
  destruct (Z.lt_ge_cases s (2 ^ k)) as [Hlt | Hge]; [| exact Hge].
  apply Z.testbit_true in Hbit; [| exact Hk].
  rewrite Z.div_small in Hbit by lia. discriminate.
Qed.

(** ** Further properties of the signature predicates *)

(** X1: each predicate is the parity of the signature divided by its mask:
    In is the parity of the value itself, Out of the value halved, and so on
    up to Kernel, the parity of the value divided by 0x20. *)
Theorem hasForEachSignature_parity (s : Z) :
  hasForEachSignatureIn s = Z.odd (s / 0x01) /\
  hasForEachSignatureOut s = Z.odd (s / 0x02) /\
  hasForEachSignatureUsrData s = Z.odd (s / 0x04) /\
  hasForEachSignatureX s = Z.odd (s / 0x08) /\
  hasForEachSignatureY s = Z.odd (s / 0x10) /\
  hasForEachSignatureKernel s = Z.odd (s / 0x20).
Proof.
  rewrite hasForEachSignatureIn_testbit, hasForEachSignatureOut_testbit,
    hasForEachSignatureUsrData_testbit, hasForEachSignatureX_testbit,
    hasForEachSignatureY_testbit, hasForEachSignatureKernel_testbit.
  rewrite !Z.testbit_odd, !Z.shiftr_div_pow2 by lia.
  repeat split.
Qed.

(** X2: the predicates act flag by flag on the bitwise operations: the
    answers on [a | b], [a & b] and [a ^ b] are the disjunction, the
    conjunction and the exclusive or of the answers on [a] and on [b]. *)
Theorem signature_flags_bitwise (a b : Z) :
  signature_flags (Z.lor a b) =
    zip_with orb (signature_flags a) (signature_flags b) /\
  signature_flags (Z.land a b) =
    zip_with andb (signature_flags a) (signature_flags b) /\
  signature_flags (Z.lxor a b) =
    zip_with xorb (signature_flags a) (signature_flags b).
Proof.
  rewrite !signature_flags_testbit.
  rewrite !Z.lor_spec, !Z.land_spec, !Z.lxor_spec.
  repeat split.
Qed.

(** X3: for the mask at position [i] of the six, or-ing the mask into a
    signature makes predicate [i] true, and-ing with the 32-bit complement
    of the mask makes it false, xor-ing the mask flips it; the other five
    answers stay as they were. *)
Theorem signature_flags_set_clear_toggle (s : Z) (i : nat) (mask : Z) :
  signature_masks !! i = Some mask ->
  signature_flags (Z.lor s mask) = <[i := true]> (signature_flags s) /\
  signature_flags (Z.land s (Z.lxor 0xFFFFFFFF mask)) =
    <[i := false]> (signature_flags s) /\
  signature_flags (Z.lxor s mask) = alter negb i (signature_flags s).
Proof.
  intros Hmask.
  rewrite !signature_flags_testbit.
  rewrite !Z.lor_spec, !Z.land_spec, !Z.lxor_spec.
  do 6 (destruct i as [|i];
        [ injection Hmask as <-; cbn;
          rewrite ?orb_false_r, ?orb_true_r, ?andb_true_r, ?andb_false_r,
            ?xorb_false_r, ?xorb_true_r;
          repeat split
        | ]).
  discriminate.
Qed.

Lemma signature_flags_set_clear_toggle_witness :
  signature_masks !! 3%nat = Some 0x08 /\
  signature_flags (Z.lor 0x21 0x08) = <[3%nat := true]> (signature_flags 0x21) /\
  signature_flags (Z.land 0x21 (Z.lxor 0xFFFFFFFF 0x08)) =
    <[3%nat := false]> (signature_flags 0x21) /\
  signature_flags (Z.lxor 0x21 0x08) = alter negb 3%nat (signature_flags 0x21).
Proof.
  split; [reflexivity |].
  apply (signature_flags_set_clear_toggle 0x21 3 0x08). reflexivity.
Defined.

(** X4: the six answers rebuild the low six bits of the signature: adding up
    the masks of the predicates that return true gives [s & 0x3F], and gives
    back [s] itself when [s] uses no bit beyond the six. *)
Theorem signature_rebuilt_from_flags (s : Z) :
  Z.land s 0x3F =
    (if hasForEachSignatureIn s then 0x01 else 0) +
    (if hasForEachSignatureOut s then 0x02 else 0) +
    (if hasForEachSignatureUsrData s then 0x04 else 0) +
    (if hasForEachSignatureX s then 0x08 else 0) +
    (if hasForEachSignatureY s then 0x10 else 0) +
    (if hasForEachSignatureKernel s then 0x20 else 0) /\
  (0 <= s < 64 -> Z.land s 0x3F = s).
Proof.
  split; [apply low_six_bits_decompose |].
  intros Hs. rewrite land_0x3F_mod_64. now apply Z.mod_small.
Qed.

(** X5: two signatures get the same six answers exactly when they agree on
    their low six bits. *)
Theorem signature_flags_eq_iff (s t : Z) :
  signature_flags s = signature_flags t <-> Z.land s 0x3F = Z.land t 0x3F.
Proof.
  split.
  - intros Hflags. rewrite (low_six_bits_decompose s), (low_six_bits_decompose t).
    unfold signature_flags in Hflags.
    injection Hflags as -> -> -> -> -> ->. reflexivity.
  - intros Hlow. rewrite <- (signature_flags_mod_64 s), <- (signature_flags_mod_64 t).
    now rewrite <- !land_0x3F_mod_64, Hlow.
Qed.

(** X6: the six flags are freely combinable: every combination of six
    answers is returned on some signature below 64, and on only one. *)
Theorem signature_flags_every_combination (fIn fOut fUsrData fX fY fKernel : bool) :
  exists s,
    (0 <= s < 64 /\
     signature_flags s = [fIn; fOut; fUsrData; fX; fY; fKernel]) /\
    forall t,
      0 <= t < 64 ->
      signature_flags t = [fIn; fOut; fUsrData; fX; fY; fKernel] ->
      t = s.
Proof.
  exists ((if fIn then 0x01 else 0) + (if fOut then 0x02 else 0) +
          (if fUsrData then 0x04 else 0) + (if fX then 0x08 else 0) +
          (if fY then 0x10 else 0) + (if fKernel then 0x20 else 0)).
  split.
  - destruct fIn, fOut, fUsrData, fX, fY, fKernel;
      (split; [lia | reflexivity]).
  - intros t Ht Hflags.
    rewrite <- (Z.mod_small t 64), <- land_0x3F_mod_64 by exact Ht.
    rewrite (low_six_bits_decompose t).
    unfold signature_flags in Hflags.
    injection Hflags as -> -> -> -> -> ->. reflexivity.
Qed.

(** X7: the answers do not change when an integer is converted to
    [uint32_t] (reduced modulo 2^32, as at the call boundary for a wider or
    a negative argument), nor when it is reduced modulo 64. *)
Theorem signature_flags_conversion (v : Z) :
  signature_flags (to_uint32 v) = signature_flags v /\
  signature_flags (v mod 64) = signature_flags v.
Proof.
  split; [| apply signature_flags_mod_64].
  unfold to_uint32, UINT32_MODULUS.
  rewrite !signature_flags_testbit.
  now rewrite !Z.mod_pow2_bits_low by lia.
Qed.

(** X8: a predicate can only return true on a 32-bit signature that is at
    least its mask; below 0x20 no signature is a Kernel, below 0x10 none has
    Y, and so on. *)
Theorem hasForEachSignature_lower_bound (s : Z) :
  is_uint32 s ->
  (hasForEachSignatureIn s = true -> 0x01 <= s) /\
  (hasForEachSignatureOut s = true -> 0x02 <= s) /\
  (hasForEachSignatureUsrData s = true -> 0x04 <= s) /\
  (hasForEachSignatureX s = true -> 0x08 <= s) /\
  (hasForEachSignatureY s = true -> 0x10 <= s) /\
  (hasForEachSignatureKernel s = true -> 0x20 <= s).
Proof.
  intros [Hs _].
  rewrite hasForEachSignatureIn_testbit, hasForEachSignatureOut_testbit,
    hasForEachSignatureUsrData_testbit, hasForEachSignatureX_testbit,
    hasForEachSignatureY_testbit, hasForEachSignatureKernel_testbit.
  split_and!; intros Hbit;
    apply testbit_true_lower_bound in Hbit; (exact Hbit || lia).
Qed.

Lemma hasForEachSignature_lower_bound_witness :
  is_uint32 0x3F /\
  (hasForEachSignatureIn 0x3F = true -> 0x01 <= 0x3F) /\
  (hasForEachSignatureOut 0x3F = true -> 0x02 <= 0x3F) /\
  (hasForEachSignatureUsrData 0x3F = true -> 0x04 <= 0x3F) /\
  (hasForEachSignatureX 0x3F = true -> 0x08 <= 0x3F) /\
  (hasForEachSignatureY 0x3F = true -> 0x10 <= 0x3F) /\
  (hasForEachSignatureKernel 0x3F = true -> 0x20 <= 0x3F).
Proof.
  split; [solve_uint32 | apply (hasForEachSignature_lower_bound 0x3F); solve_uint32].
Defined.
